(** * A shallow embedding of the multi-provider mailer (SimpleFactory.ts,
    NodemailerProvider.ts, SendGridProvider.ts, types/email.types.ts).

    JavaScript numbers are modelled as [Z] (counters, timestamps, durations)
    and the success rate as a rational [Q]; [undefined] fields are [option]s.
    Promise rejections and [throw] are the [Throw] case of [Outcome].
    The external libraries (nodemailer, @sendgrid/mail, fs) are a [World]
    record that the definitions take as a parameter. *)

From Stdlib Require Import String Ascii List ZArith QArith Bool Lia.
Import ListNotations.
Open Scope string_scope.

(** ** JavaScript values used throughout *)

(** A thrown [Error] carries its [message]. *)
Inductive Exn := ErrorMsg (message : string).

(** The result of an async call: resolves with a value or rejects. *)
Inductive Outcome (A : Type) :=
| Ok (a : A)
| Throw (e : Exn).
Arguments Ok {A} a.
Arguments Throw {A} e.

(** [x || d] on an optional string: [undefined] and [""] are falsy. *)
Definition or_default (x : option string) (d : string) : string :=
  match x with
  | Some v => if String.eqb v "" then d else v
  | None => d
  end.

Definition is_truthy (b : option bool) : bool :=
  match b with Some true => true | _ => false end.

(** [arr.join(sep)] *)
Fixpoint join (sep : string) (l : list string) : string :=
  match l with
  | [] => ""
  | [x] => x
  | x :: rest => x ++ sep ++ join sep rest
  end.

(** ** types/email.types.ts *)

(** [EmailOptions]: the fields the providers read ([to] is [string | string[]],
    kept as the list of recipients). *)
Record EmailOptions := mkEmailOptions {
  to : list string;
  subject : string;
  text : option string;
  html : option string
}.

Record EmailResult := mkEmailResult {
  success : bool;
  messageId : option string;
  response : option string;
  error : option string;
  duration : Z;
  provider : string
}.

(** ** The external libraries *)

(** What a transport call reports: on success the response fields, the
    elapsed milliseconds ([Date.now() - startTime]) and the time of
    completion ([new Date()]); on failure the error message and the elapsed
    milliseconds. *)
Record TransportInfo := mkTransportInfo {
  info_messageId : option string;    (* info.messageId / headers['x-message-id'] *)
  info_response : option string;     (* info.response (nodemailer) *)
  info_statusCode : string;          (* response.statusCode (sendgrid) *)
  info_body : string                 (* response.body (sendgrid) *)
}.

Inductive TOutcome :=
| Resolve (info : TransportInfo) (elapsed : Z) (finishedAt : Z)
| Reject (msg : string) (elapsed : Z).

(** The options object handed to [transporter.sendMail]. *)
Record MailOptions := mkMailOptions {
  mo_from : option string;
  mo_to : string;
  mo_subject : string;
  mo_text : option string;
  mo_html : option string
}.

(** The [mailData] handed to [sgMail.send]. *)
Record SgMailData := mkSgMailData {
  sd_from : option string;
  sd_to : list string;
  sd_subject : string;
  sd_content : list (string * string)   (* [{type, value}] *)
}.

(** The connection object passed to [NodemailerProvider.initialize]. *)
Record NmConnection := mkNmConnection {
  nc_host : option string;
  nc_port : option Z;
  nc_secure : option bool;
  nc_user : option string;
  nc_password : option string;
  nc_from : option string
}.

(** The connection object passed to [SendGridProvider.initialize]. *)
Record SgConnection := mkSgConnection {
  gc_apiKey : option string;
  gc_from : option string
}.

(** A nodemailer [Transporter] as returned by [createTransport]. *)
Record Transporter := mkTransporter {
  transporter_verify : bool;                    (* transporter.verify() resolves *)
  transporter_sendMail : MailOptions -> TOutcome
}.

Record World := mkWorld {
  createTransport : NmConnection -> Transporter;
  sgMailSend : string -> SgMailData -> TOutcome;  (* sgMail.send after setApiKey(key) *)
  readFileSync : string -> option string;       (* fs.readFileSync(path, 'utf-8') *)
  clock : Z                                     (* new Date() when an adapter is constructed *)
}.

(** ** Provider metrics (identical [metrics] field and [updateMetrics] in both
    providers) *)

Record Metrics := mkMetrics {
  sentToday : Z;
  sentThisHour : Z;
  errorCount : Z;
  successCount : Z;
  totalResponseTime : Z;
  lastSuccessfulSend : Z;
  lastError : string
}.

Definition initial_metrics (now : Z) : Metrics :=
  mkMetrics 0 0 0 0 0 now "".

(** [updateMetrics(success, duration, error?)]; [now] is [new Date()]. *)
Definition updateMetrics (ok : bool) (dur : Z) (err : option string) (now : Z)
    (m : Metrics) : Metrics :=
  if ok then
    {| sentToday := sentToday m + 1;
       sentThisHour := sentThisHour m + 1;
       errorCount := errorCount m;
       successCount := successCount m + 1;
       totalResponseTime := totalResponseTime m + dur;
       lastSuccessfulSend := now;
       lastError := lastError m |}
  else
    {| sentToday := sentToday m;
       sentThisHour := sentThisHour m;
       errorCount := errorCount m + 1;
       successCount := successCount m;
       totalResponseTime := totalResponseTime m;
       lastSuccessfulSend := lastSuccessfulSend m;
       lastError := or_default err "Unknown error" |}.

(** [ProviderHealthStatus] *)
Record HealthStatus := mkHealthStatus {
  isHealthy : bool;
  hs_lastSuccessfulSend : Z;
  hs_lastError : string;
  hs_errorCount : Z;
  successRate : Q;
  averageResponseTime : Q;
  hs_sentToday : Z;
  hs_sentThisHour : Z;
  queueSize : Z
}.

Definition compute_successRate (m : Metrics) : Q :=
  if (successCount m + errorCount m >? 0)%Z
  then (inject_Z (successCount m) / inject_Z (successCount m + errorCount m)) * inject_Z 100
  else 0.

Definition compute_averageResponseTime (m : Metrics) : Q :=
  if (successCount m >? 0)%Z
  then inject_Z (totalResponseTime m) / inject_Z (successCount m)
  else 0.

(** [x > 95] on the rate. *)
Definition gt95 (q : Q) : bool := negb (Qle_bool q (inject_Z 95)).

(** The interface [IMailProvider], reduced to what the orchestrator uses:
    a name, a priority and [sendEmail], which returns the provider's updated
    state together with its outcome. *)
Class IMailProvider (P : Type) := {
  name : P -> string;
  priority : P -> Z;
  sendEmail : P -> EmailOptions -> P * Outcome EmailResult
}.

(** Network calls made by [verifyConnection] (the side effect of a health
    check). *)
Inductive NetCall :=
| CallTransporterVerify
| CallSgMailSend (data : SgMailData).

(** [ProviderFeature] (interfaces/IMailProvider.ts) *)
Inductive ProviderFeature :=
| TEMPLATES | ATTACHMENTS | BULK_SEND | WEBHOOKS | ANALYTICS | SCHEDULING | A_B_TESTING.

Definition ProviderFeature_eqb (a b : ProviderFeature) : bool :=
  match a, b with
  | TEMPLATES, TEMPLATES | ATTACHMENTS, ATTACHMENTS | BULK_SEND, BULK_SEND
  | WEBHOOKS, WEBHOOKS | ANALYTICS, ANALYTICS | SCHEDULING, SCHEDULING
  | A_B_TESTING, A_B_TESTING => true
  | _, _ => false
  end.

(** [arr.includes(x)] *)
Definition includes (l : list ProviderFeature) (f : ProviderFeature) : bool :=
  existsb (ProviderFeature_eqb f) l.

(** [EmailPriority] is a numeric enum: LOW = 1, NORMAL = 2, HIGH = 3,
    CRITICAL = 4; an [EmailOptions.priority] is [undefined] or a number. *)
Definition EmailPriority_LOW : Z := 1.
Definition EmailPriority_NORMAL : Z := 2.
Definition EmailPriority_HIGH : Z := 3.
Definition EmailPriority_CRITICAL : Z := 4.

(** ** providers/NodemailerProvider.ts *)
Module NodemailerProvider.

Record t := mk {
  transporter : option Transporter;
  config : option NmConnection;
  metrics : Metrics
}.

Definition pname : string := "nodemailer".
Definition ppriority : Z := 1.
Definition rateLimit : Z := 10.

(** [new NodemailerProvider(logger)] *)
Definition new (w : World) : t := mk None None (initial_metrics (clock w)).

(** [initialize(config)]: stores the config and creates the pooled
    transport; nothing is checked. *)
Definition initialize (w : World) (p : t) (cfg : NmConnection) : t * Outcome unit :=
  (mk (Some (createTransport w cfg)) (Some cfg) (metrics p), Ok tt).

Definition from_of (p : t) : option string :=
  match config p with Some c => nc_from c | None => None end.

Definition with_metrics (p : t) (m : Metrics) : t :=
  mk (transporter p) (config p) m.

(** [sendEmail(options)] *)
Definition sendEmail (p : t) (options : EmailOptions) : t * Outcome EmailResult :=
  match transporter p with
  | None => (p, Throw (ErrorMsg "Nodemailer provider not initialized"))
  | Some tr =>
      let mailOptions := mkMailOptions (from_of p) (join ", " (to options))
                           (subject options) (text options) (html options) in
      match transporter_sendMail tr mailOptions with
      | Resolve info dur fin =>
          (with_metrics p (updateMetrics true dur None fin (metrics p)),
           Ok (mkEmailResult true (Some (or_default (info_messageId info) ""))
                 (Some (or_default (info_response info) "")) None dur pname))
      | Reject msg dur =>
          (* [new Date()] is not read on the failure branch *)
          (with_metrics p (updateMetrics false dur (Some msg) 0 (metrics p)),
           Ok (mkEmailResult false None None (Some msg) dur pname))
      end
  end.

(** [verifyConnection()] *)
Definition verifyConnection (p : t) : bool * list NetCall :=
  match transporter p with
  | None => (false, [])
  | Some tr => (transporter_verify tr, [CallTransporterVerify])
  end.

(** [getHealthStatus()]: [isHealthy: await this.verifyConnection() && successRate > 95] *)
Definition getHealthStatus (p : t) : HealthStatus * list NetCall :=
  let m := metrics p in
  let rate := compute_successRate m in
  let avg := compute_averageResponseTime m in
  let '(v, calls) := verifyConnection p in
  (mkHealthStatus (v && gt95 rate) (lastSuccessfulSend m) (lastError m)
     (errorCount m) rate avg (sentToday m) (sentThisHour m) 0, calls).

(** [supportsFeature(feature)] *)
Definition supportsFeature (f : ProviderFeature) : bool :=
  includes [ATTACHMENTS; BULK_SEND] f.

(** [mapPriority(priority?)]: [if (!priority) return undefined], then the
    [switch] with its [default: 'normal']. *)
Definition mapPriority (priority : option Z) : option string :=
  match priority with
  | None => None
  | Some z =>
      if (z =? 0)%Z then None
      else if (z =? EmailPriority_LOW)%Z then Some "low"
      else if (z =? EmailPriority_NORMAL)%Z then Some "normal"
      else if (z =? EmailPriority_HIGH)%Z then Some "high"
      else if (z =? EmailPriority_CRITICAL)%Z then Some "high"
      else Some "normal"
  end.

(** [sendBulkEmails(emails)]: one [sendEmail] after the other (the
    [delay(100)] between them has no effect on the values); a throw of
    [sendEmail] becomes a failed result with duration 0. *)
Fixpoint sendBulkEmails (p : t) (emails : list EmailOptions) : t * list EmailResult :=
  match emails with
  | [] => (p, [])
  | email :: rest =>
      let '(p1, o) := sendEmail p email in
      let r := match o with
               | Ok r => r
               | Throw (ErrorMsg m) => mkEmailResult false None None (Some m) 0 pname
               end in
      let '(p2, rs) := sendBulkEmails p1 rest in
      (p2, r :: rs)
  end.

End NodemailerProvider.

(** ** providers/SendGridProvider.ts *)
Module SendGridProvider.

Record t := mk {
  config : option SgConnection;
  isInitialized : bool;
  apiKey : option string;      (* the key given to sgMail.setApiKey *)
  metrics : Metrics
}.

Definition pname : string := "sendgrid".
Definition ppriority : Z := 2.
Definition rateLimit : Z := 100.

(** [new SendGridProvider(logger)] *)
Definition new (w : World) : t := mk None false None (initial_metrics (clock w)).

(** [initialize(config)]: [this.config = config] happens before the check. *)
Definition initialize (w : World) (p : t) (cfg : SgConnection) : t * Outcome unit :=
  let p1 := mk (Some cfg) (isInitialized p) (apiKey p) (metrics p) in
  if or_default (gc_apiKey cfg) "" =? "" then
    (p1, Throw (ErrorMsg "SendGrid API key is required"))
  else
    (mk (Some cfg) true (gc_apiKey cfg) (metrics p), Ok tt).

Definition from_of (p : t) : option string :=
  match config p with Some c => gc_from c | None => None end.

Definition key_of (p : t) : string := or_default (apiKey p) "".

Definition with_metrics (p : t) (m : Metrics) : t :=
  mk (config p) (isInitialized p) (apiKey p) m.

(** [content: options.html ? [text/html] : [text/plain, options.text || '']] *)
Definition content_of (options : EmailOptions) : list (string * string) :=
  if or_default (html options) "" =? "" then [("text/plain", or_default (text options) "")]
  else [("text/html", or_default (html options) "")].

(** [sendEmail(options)] *)
Definition sendEmail (w : World) (p : t) (options : EmailOptions) : t * Outcome EmailResult :=
  if negb (isInitialized p) then (p, Throw (ErrorMsg "SendGrid provider not initialized"))
  else
    let mailData := mkSgMailData (from_of p) (to options) (subject options) (content_of options) in
    match sgMailSend w (key_of p) mailData with
    | Resolve info dur fin =>
        (with_metrics p (updateMetrics true dur None fin (metrics p)),
         Ok (mkEmailResult true (info_messageId info)
               (Some (info_statusCode info ++ ": " ++ info_body info)) None dur pname))
    | Reject msg dur =>
        (with_metrics p (updateMetrics false dur (Some msg) 0 (metrics p)),
         Ok (mkEmailResult false None None (Some msg) dur pname))
    end.

(** The self-addressed test message of [verifyConnection]. *)
Definition test_mail (p : t) : SgMailData :=
  mkSgMailData (from_of p) (match from_of p with Some f => [f] | None => [] end)
    "SendGrid Connection Test" [("text/plain", "This is a connection test email")].

(** [verifyConnection()] *)
Definition verifyConnection (w : World) (p : t) : bool * list NetCall :=
  if negb (isInitialized p) then (false, [])
  else
    match sgMailSend w (key_of p) (test_mail p) with
    | Resolve _ _ _ => (true, [CallSgMailSend (test_mail p)])
    | Reject _ _ => (false, [CallSgMailSend (test_mail p)])
    end.

(** [getHealthStatus()]: [isHealthy: this.isInitialized && successRate > 95] *)
Definition getHealthStatus (p : t) : HealthStatus * list NetCall :=
  let m := metrics p in
  let rate := compute_successRate m in
  let avg := compute_averageResponseTime m in
  (mkHealthStatus (isInitialized p && gt95 rate) (lastSuccessfulSend m) (lastError m)
     (errorCount m) rate avg (sentToday m) (sentThisHour m) 0, []).

(** [shutdown()] *)
Definition shutdown (p : t) : t := mk (config p) false (apiKey p) (metrics p).

(** [supportsFeature(feature)] *)
Definition supportsFeature (f : ProviderFeature) : bool :=
  includes [TEMPLATES; ATTACHMENTS; BULK_SEND; WEBHOOKS; ANALYTICS; A_B_TESTING] f.

End SendGridProvider.

(** Both providers behind [IMailProvider]. *)
Inductive Adapter :=
| ANodemailer (p : NodemailerProvider.t)
| ASendGrid (p : SendGridProvider.t).

Definition adapter_sendEmail (w : World) (a : Adapter) (o : EmailOptions) : Adapter * Outcome EmailResult :=
  match a with
  | ANodemailer p => let '(p', r) := NodemailerProvider.sendEmail p o in (ANodemailer p', r)
  | ASendGrid p => let '(p', r) := SendGridProvider.sendEmail w p o in (ASendGrid p', r)
  end.

Definition adapter_metrics (a : Adapter) : Metrics :=
  match a with
  | ANodemailer p => NodemailerProvider.metrics p
  | ASendGrid p => SendGridProvider.metrics p
  end.

Definition adapter_verifyConnection (w : World) (a : Adapter) : bool * list NetCall :=
  match a with
  | ANodemailer p => NodemailerProvider.verifyConnection p
  | ASendGrid p => SendGridProvider.verifyConnection w p
  end.

Definition adapter_getHealthStatus (a : Adapter) : HealthStatus * list NetCall :=
  match a with
  | ANodemailer p => NodemailerProvider.getHealthStatus p
  | ASendGrid p => SendGridProvider.getHealthStatus p
  end.

Definition adapter_name (a : Adapter) : string :=
  match a with ANodemailer _ => NodemailerProvider.pname | ASendGrid _ => SendGridProvider.pname end.

Definition adapter_priority (a : Adapter) : Z :=
  match a with ANodemailer _ => NodemailerProvider.ppriority | ASendGrid _ => SendGridProvider.ppriority end.

#[export] Instance adapter_provider (w : World) : IMailProvider Adapter := {
  name := adapter_name;
  priority := adapter_priority;
  sendEmail := adapter_sendEmail w
}.

(** ** SimpleFactory.ts *)

(** [SimpleEmailConfig] *)
Record NmCfg := mkNmCfg {
  nm_enabled : option bool;
  nm_priority : option Z;
  nm_host : option string;
  nm_port : option Z;
  nm_secure : option bool;
  nm_user : option string;
  nm_password : option string;
  nm_from : option string
}.

Record SgCfg := mkSgCfg {
  sg_enabled : option bool;
  sg_priority : option Z;
  sg_apiKey : option string;
  sg_from : option string
}.

Record SimpleEmailConfig := mkSimpleEmailConfig {
  serviceName : string;
  nodemailer : option NmCfg;
  sendgrid : option SgCfg;
  templates_directory : option string    (* config.templates?.directory *)
}.

(** What the orchestrator does that a test can observe through mocks:
    adapter construction and calls of an adapter's [sendEmail]. *)
Inductive Event :=
| Constructed (provider_name : string)
| Invoked (provider_name : string).

(** The synthetic result when every provider failed. *)
Definition all_failed : EmailResult :=
  mkEmailResult false None None (Some "All mail providers failed") 0 "none".

(** [b.priority || 1] *)
Definition or1 (z : Z) : Z := if (z =? 0)%Z then 1 else z.

(** [Array.prototype.sort] is stable (ES2019): insertion sort with the same
    comparator gives the order every stable sort gives. *)
Section StableSort.
Context {A : Type} (cmp : A -> A -> Z).

Fixpoint insert_stable (x : A) (l : list A) : list A :=
  match l with
  | [] => [x]
  | y :: ys => if (cmp x y <? 0)%Z then x :: l else y :: insert_stable x ys
  end.

Definition stable_sort (l : list A) : list A :=
  fold_left (fun acc x => insert_stable x acc) l [].
End StableSort.

(** The failover loop of [SimpleEmailService.sendEmail] over any list of
    providers:
    [for (const provider of this.providers) { try { const result = await
    provider.sendEmail(options); if (result.success) return result; } catch
    { continue; } } return { success: false, ... provider: 'none' }].
    Each provider's state after its call is written back (the loop mutates
    the objects in place). *)
Section Failover.
Context {P : Type} {IP : IMailProvider P}.

Fixpoint try_providers (ps : list P) (options : EmailOptions)
    : list P * list Event * EmailResult :=
  match ps with
  | [] => ([], [], all_failed)
  | p :: rest =>
      let '(p', o) := sendEmail p options in
      match o with
      | Ok r =>
          if success r then (p' :: rest, [Invoked (name p)], r)
          else let '(rest', ev, res) := try_providers rest options in
               (p' :: rest', Invoked (name p) :: ev, res)
      | Throw _ =>
          let '(rest', ev, res) := try_providers rest options in
          (p' :: rest', Invoked (name p) :: ev, res)
      end
  end.

(** The comparator [(a, b) => (b.priority || 1) - (a.priority || 1)]. *)
Definition cmp_priority (a b : P) : Z := or1 (priority b) - or1 (priority a).

Definition sort_providers (ps : list P) : list P := stable_sort cmp_priority ps.
End Failover.

(** ** Template handling of [sendTemplateEmail] (inline in the source):
    the [handlebars] renderer and the subject regular expression. Template
    text is a list of characters. *)
Module Template.

Definition chars (s : string) : list ascii := list_ascii_of_string s.

Definition is_space (c : ascii) : bool :=
  let n := nat_of_ascii c in
  Nat.eqb n 32 || Nat.eqb n 9 || Nat.eqb n 10 || Nat.eqb n 11 || Nat.eqb n 12 || Nat.eqb n 13 || Nat.eqb n 160.

Definition trim (s : list ascii) : list ascii :=
  let fix drop (l : list ascii) := match l with c :: r => if is_space c then drop r else l | [] => [] end in
  rev (drop (rev (drop s))).

(** Handlebars' [escapeExpression] for [{{...}}]. *)
Definition double_quote : ascii := ascii_of_nat 34.

Definition escape_char (c : ascii) : list ascii :=
  if Ascii.eqb c double_quote then chars "&quot;" else
  match c with
  | "&"%char => chars "&amp;"
  | "<"%char => chars "&lt;"
  | ">"%char => chars "&gt;"
  | "'"%char => chars "&#x27;"
  | "`"%char => chars "&#x60;"
  | "="%char => chars "&#x3D;"
  | c => [c]
  end.

Definition escape (s : list ascii) : list ascii := flat_map escape_char s.

(** The template data: a JavaScript object with string values. *)
Definition Data := list (string * string).

Fixpoint lookup (k : string) (d : Data) : option string :=
  match d with
  | [] => None
  | (k', v) :: rest => if String.eqb k k' then Some v else lookup k rest
  end.

(** The value of a simple mustache [{{ key }}]: the escaped value, or the
    empty string for a missing key. Block helpers, partials, comments and
    unescaped output are not covered by this model and are reported as an
    error. *)
Definition mustache (inner : list ascii) (data : Data) : Outcome (list ascii) :=
  match trim inner with
  | [] => Throw (ErrorMsg "Parse error")
  | c :: _ =>
      if existsb (Ascii.eqb c) (chars "!#/^>{&=~") then Throw (ErrorMsg "Parse error")
      else Ok (match lookup (string_of_list_ascii (trim inner)) data with
               | Some v => escape (chars v)
               | None => []
               end)
  end.

Inductive mode :=
| MText
| MOpen1
| MIn (acc : list ascii)
| MClose1 (acc : list ascii).

(** [handlebars.compile(source)(data)], one character at a time. *)
Fixpoint render_mode (s : list ascii) (m : mode) (data : Data) : Outcome (list ascii) :=
  match s, m with
  | [], MText => Ok []
  | [], MOpen1 => Ok ["{"%char]
  | [], _ => Throw (ErrorMsg "Parse error")
  | c :: rest, MText =>
      if Ascii.eqb c "{" then render_mode rest MOpen1 data
      else match render_mode rest MText data with Ok o => Ok (c :: o) | Throw e => Throw e end
  | c :: rest, MOpen1 =>
      if Ascii.eqb c "{" then render_mode rest (MIn []) data
      else match render_mode rest MText data with Ok o => Ok ("{"%char :: c :: o) | Throw e => Throw e end
  | c :: rest, MIn acc =>
      if Ascii.eqb c "}" then render_mode rest (MClose1 acc) data
      else render_mode rest (MIn (acc ++ [c])%list) data
  | c :: rest, MClose1 acc =>
      if Ascii.eqb c "}" then
        match mustache acc data, render_mode rest MText data with
        | Ok v, Ok o => Ok (v ++ o)%list
        | Throw e, _ => Throw e
        | _, Throw e => Throw e
        end
      else Throw (ErrorMsg "Parse error")
  end.

Definition render (src : list ascii) (data : Data) : Outcome (list ascii) :=
  render_mode src MText data.

(** JavaScript regular expressions with the constructs the subject pattern
    uses, matched by backtracking as the ECMAScript semantics prescribes. *)
Inductive regex :=
| REmpty
| RChar (c : ascii)          (* a literal, compared case-insensitively (flag i) *)
| RSpace                     (* \s *)
| RDot                       (* . : any character but a line terminator *)
| RSeq (r1 r2 : regex)
| RStar (r : regex)          (* r* (greedy) *)
| RLazyStar (r : regex)      (* r*? *)
| RGroup (r : regex).        (* the capture group *)

(** [Canonicalize] for a non-unicode [i] regexp on ASCII letters. *)
Definition canon (c : ascii) : ascii :=
  let n := nat_of_ascii c in
  if Nat.leb 97 n && Nat.leb n 122 then ascii_of_nat (n - 32) else c.

Definition is_line_terminator (c : ascii) : bool :=
  Nat.eqb (nat_of_ascii c) 10 || Nat.eqb (nat_of_ascii c) 13.

Definition Cont := list ascii -> option (list ascii) -> option (option (list ascii)).

Fixpoint rmatch (fuel : nat) (r : regex) (s : list ascii) (cap : option (list ascii)) (k : Cont)
    : option (option (list ascii)) :=
  match fuel with
  | O => None
  | S f =>
    match r with
    | REmpty => k s cap
    | RChar c => match s with x :: s' => if Ascii.eqb (canon x) (canon c) then k s' cap else None | [] => None end
    | RSpace => match s with x :: s' => if is_space x then k s' cap else None | [] => None end
    | RDot => match s with x :: s' => if is_line_terminator x then None else k s' cap | [] => None end
    | RSeq r1 r2 => rmatch f r1 s cap (fun s1 c1 => rmatch f r2 s1 c1 k)
    | RStar r1 =>
        match rmatch f r1 s cap
                (fun s1 c1 => if (length s1 <? length s)%nat then rmatch f (RStar r1) s1 c1 k else None) with
        | Some x => Some x
        | None => k s cap
        end
    | RLazyStar r1 =>
        match k s cap with
        | Some x => Some x
        | None => rmatch f r1 s cap
                    (fun s1 c1 => if (length s1 <? length s)%nat then rmatch f (RLazyStar r1) s1 c1 k else None)
        end
    | RGroup r1 => rmatch f r1 s cap (fun s1 _ => k s1 (Some (firstn (length s - length s1) s)))
    end
  end.

Fixpoint lit (l : list ascii) (r : regex) : regex :=
  match l with [] => r | c :: l' => RSeq (RChar c) (lit l' r) end.

(** [/<!--\s*SUBJECT:\s*(.+?)\s*-->/i] *)
Definition subject_re : regex :=
  lit (chars "<!--") (RSeq (RStar RSpace) (lit (chars "SUBJECT:") (RSeq (RStar RSpace)
    (RSeq (RGroup (RSeq RDot (RLazyStar RDot))) (RSeq (RStar RSpace) (lit (chars "-->") REmpty)))))).

(** [str.match(re)] without the [g] flag: the first start index at which the
    pattern matches; the result is the first capture. *)
Fixpoint match_from (r : regex) (s : list ascii) (fuel : nat) : option (option (list ascii)) :=
  match rmatch fuel r s None (fun _ c => Some c) with
  | Some c => Some c
  | None => match s with [] => None | _ :: s' => match_from r s' fuel end
  end.

Definition str_match (r : regex) (s : list ascii) : option (option (list ascii)) :=
  match_from r s (4 * length s + 64).

(** The try-block of [sendTemplateEmail] up to the [sendEmail] call:
    read the file, render it, extract and render the subject. *)
Definition resolve (w : World) (templatePath : string) (data : Data) : Outcome (string * string) :=
  match readFileSync w templatePath with
  | None => Throw (ErrorMsg ("ENOENT: no such file or directory, open '" ++ templatePath ++ "'"))
  | Some source =>
      let src := chars source in
      match render src data with
      | Throw e => Throw e
      | Ok html =>
          match str_match subject_re src with
          | Some (Some cap) =>
              match render cap data with
              | Ok subj => Ok (string_of_list_ascii subj, string_of_list_ascii html)
              | Throw e => Throw e
              end
          | _ => Ok ("Email Notification", string_of_list_ascii html)
          end
      end
  end.

End Template.

Module SimpleEmailService.

Record t := mk {
  providers : list Adapter;
  initialized : bool;
  config : SimpleEmailConfig
}.

(** [new SimpleEmailService(config)] *)
Definition new (c : SimpleEmailConfig) : t := mk [] false c.

(** A small state, log and exception monad for the service's methods. *)
Definition M (A : Type) : Type := t -> t * list Event * Outcome A.

Definition ret {A} (a : A) : M A := fun s => (s, [], Ok a).

Definition bind {A B} (m : M A) (k : A -> M B) : M B :=
  fun s =>
    match m s with
    | (s1, e1, Ok a) => let '(s2, e2, r) := k a s1 in (s2, (e1 ++ e2)%list, r)
    | (s1, e1, Throw e) => (s1, e1, Throw e)
    end.

Notation "x <- m ;; k" := (bind m (fun x => k))
  (at level 61, m at next level, right associativity).

Definition get : M t := fun s => (s, [], Ok s).
Definition put (s : t) : M unit := fun _ => (s, [], Ok tt).
Definition tell (ev : list Event) : M unit := fun s => (s, ev, Ok tt).
Definition throw {A} (e : Exn) : M A := fun s => (s, [], Throw e).

(** [new Error('No mail providers could be initialized')] *)
Definition NoProvidersAvailable : Exn := ErrorMsg "No mail providers could be initialized".

Definition nm_connection (n : NmCfg) : NmConnection :=
  mkNmConnection (nm_host n) (nm_port n) (nm_secure n) (nm_user n) (nm_password n) (nm_from n).

Definition sg_connection (g : SgCfg) : SgConnection :=
  mkSgConnection (sg_apiKey g) (sg_from g).

(** The [if (this.config.nodemailer?.enabled) { try { ... } catch { ... } }]
    block: the adapter that survives construction, [initialize] and
    [verifyConnection], if any. *)
Definition attempt_nodemailer (w : World) (c : SimpleEmailConfig) : list Event * option Adapter :=
  match nodemailer c with
  | Some n =>
      if is_truthy (nm_enabled n) then
        let p0 := NodemailerProvider.new w in
        let '(p1, r) := NodemailerProvider.initialize w p0 (nm_connection n) in
        ([Constructed NodemailerProvider.pname],
         match r with
         | Ok _ => if fst (NodemailerProvider.verifyConnection p1) then Some (ANodemailer p1) else None
         | Throw _ => None
         end)
      else ([], None)
  | None => ([], None)
  end.

(** The [if (this.config.sendgrid?.enabled) { ... }] block. *)
Definition attempt_sendgrid (w : World) (c : SimpleEmailConfig) : list Event * option Adapter :=
  match sendgrid c with
  | Some g =>
      if is_truthy (sg_enabled g) then
        let p0 := SendGridProvider.new w in
        let '(p1, r) := SendGridProvider.initialize w p0 (sg_connection g) in
        ([Constructed SendGridProvider.pname],
         match r with
         | Ok _ => if fst (SendGridProvider.verifyConnection w p1) then Some (ASendGrid p1) else None
         | Throw _ => None
         end)
      else ([], None)
  | None => ([], None)
  end.

Definition opt_list {A} (o : option A) : list A :=
  match o with Some a => [a] | None => [] end.

(** [this.providers.push(provider)] when an attempt survived. *)
Definition push (o : option Adapter) : M unit :=
  s <- get ;; put (mk (providers s ++ opt_list o) (initialized s) (config s)).

(** [initialize()] *)
Definition initialize (w : World) : M unit :=
  s <- get ;;
  if initialized s then ret tt else
  let '(ev1, o1) := attempt_nodemailer w (config s) in
  _ <- tell ev1 ;; _ <- push o1 ;;
  let '(ev2, o2) := attempt_sendgrid w (config s) in
  _ <- tell ev2 ;; _ <- push o2 ;;
  s2 <- get ;;
  if (length (providers s2) =? 0)%nat then throw NoProvidersAvailable else
  put (mk (sort_providers (IP := adapter_provider w) (providers s2)) true (config s2)).

(** [sendEmail(options)] *)
Definition sendEmail (w : World) (options : EmailOptions) : M EmailResult :=
  s <- get ;;
  _ <- (if initialized s then ret tt else initialize w) ;;
  s1 <- get ;;
  let '(ps, ev, r) := try_providers (IP := adapter_provider w) (providers s1) options in
  _ <- put (mk ps (initialized s1) (config s1)) ;;
  _ <- tell ev ;;
  ret r.

(** [getProviders()] *)
Definition getProviders (s : t) : list string :=
  map adapter_name (providers s).

(** The template file path. *)
Definition templatePath (s : t) (templateName : string) : string :=
  or_default (templates_directory (config s)) "./templates" ++ "/" ++ templateName ++ ".html".

(** [sendTemplateEmail(templateName, templateData, options)]: the
    [return this.sendEmail(...)] is not awaited inside the [try], so only
    the template steps are caught. *)
Definition sendTemplateEmail (w : World) (templateName : string) (templateData : Template.Data)
    (options : EmailOptions) : M EmailResult :=
  s <- get ;;
  match Template.resolve w (templatePath s templateName) templateData with
  | Ok (subj, body) =>
      sendEmail w (mkEmailOptions (to options) subj (text options) (Some body))
  | Throw (ErrorMsg msg) =>
      ret (mkEmailResult false None None (Some ("Template loading failed: " ++ msg)) 0 "template-loader")
  end.

End SimpleEmailService.

(** [createEmailService(config)]: construct, [await service.initialize()],
    return the service (or reject with the error of [initialize]). *)
Definition createEmailService (w : World) (c : SimpleEmailConfig)
    : list Event * Outcome SimpleEmailService.t :=
  let '(s, ev, o) := SimpleEmailService.initialize w (SimpleEmailService.new c) in
  match o with
  | Ok _ => (ev, Ok s)
  | Throw e => (ev, Throw e)
  end.

(** ** Concrete inputs *)

Definition nl : string := String (ascii_of_nat 10) "".

(** The template file of the spec's example. *)
Definition welcome_file : string := "<!-- SUBJECT: Hi {{name}} -->" ++ nl ++ "<p>{{name}}</p>".

(** A world where both transports accept everything and [./templates/welcome.html]
    holds [welcome_file]. *)
Definition ok_info : TransportInfo := mkTransportInfo (Some "<id@x>") (Some "250 OK") "202" "".

Definition world_up : World :=
  mkWorld (fun _ => mkTransporter true (fun _ => Resolve ok_info 5 1005))
          (fun _ _ => Resolve ok_info 7 1007)
          (fun p => if String.eqb p "./templates/welcome.html" then Some welcome_file else None)
          1000.

(** A world where the SMTP relay is reachable but every send is refused, and
    the SendGrid API refuses everything. *)
Definition world_down : World :=
  mkWorld (fun _ => mkTransporter true (fun _ => Reject "550 rejected" 3))
          (fun _ _ => Reject "Unauthorized" 4)
          (fun _ => None)
          1000.

Definition msg0 : EmailOptions := mkEmailOptions ["user@example.com"] "Welcome!" None (Some "<h1>Hi</h1>").

(** Both providers enabled, with configured priorities 5 (nodemailer) and 1
    (sendgrid). *)
Definition cfg_both : SimpleEmailConfig :=
  mkSimpleEmailConfig "svc"
    (Some (mkNmCfg (Some true) (Some 5%Z) (Some "smtp.example.com") (Some 587%Z) (Some false)
             (Some "u") (Some "pw") (Some "noreply@example.com")))
    (Some (mkSgCfg (Some true) (Some 1%Z) (Some "SG.key") (Some "noreply@example.com")))
    None.

Open Scope list_scope.

(** ** Lemmas *)

(** An adapter attempt that fails: a result with [success = false], or a throw. *)
Definition fails {P} {IP : IMailProvider P} (o : EmailOptions) (p : P) : Prop :=
  match snd (sendEmail p o) with Ok r => success r = false | Throw _ => True end.

Lemma try_providers_spec {P} {IP : IMailProvider P} (ps : list P) (o : EmailOptions) :
  let '(_, ev, res) := try_providers ps o in
  (exists pre p post r,
      ps = pre ++ p :: post /\ Forall (fails o) pre /\
      snd (sendEmail p o) = Ok r /\ success r = true /\ res = r /\
      ev = map (fun q => Invoked (name q)) (pre ++ [p]))
  \/ (Forall (fails o) ps /\ res = all_failed /\ ev = map (fun q => Invoked (name q)) ps).
Proof.
  induction ps as [|p rest IH]; cbn.
  - right. repeat split; constructor.
  - destruct (sendEmail p o) as [p' out] eqn:Hs.
    (* the case where [p] fails and the loop goes on with [rest] *)
    assert (Hrest : fails o p -> forall ps' ev res, try_providers rest o = (ps', ev, res) ->
      (exists pre q post r, p :: rest = pre ++ q :: post /\ Forall (fails o) pre /\
         snd (sendEmail q o) = Ok r /\ success r = true /\ res = r /\
         Invoked (name p) :: ev = map (fun q => Invoked (name q)) (pre ++ [q]))
      \/ (Forall (fails o) (p :: rest) /\ res = all_failed /\
          Invoked (name p) :: ev = map (fun q => Invoked (name q)) (p :: rest))).
    { intros Hf ps' ev res Ht. rewrite Ht in IH.
      destruct IH as [(pre & q & post & r & -> & Hpre & Hq & Hok & Hr & Hev)|(Hall & Hr & Hev)].
      - left. exists (p :: pre), q, post, r. cbn. rewrite Hev. repeat split; auto.
      - right. rewrite Hev. repeat split; auto. }
    destruct out as [r|e].
    + destruct (success r) eqn:Hsucc.
      * left. exists [], p, rest, r. cbn. rewrite Hs. repeat split; auto.
      * destruct (try_providers rest o) as [[ps' ev] res] eqn:Ht.
        apply (Hrest ltac:(unfold fails; rewrite Hs; exact Hsucc) ps' ev res eq_refl).
    + destruct (try_providers rest o) as [[ps' ev] res] eqn:Ht.
      apply (Hrest ltac:(unfold fails; rewrite Hs; exact I) ps' ev res eq_refl).
Qed.

(** The adapters that survive construction, [initialize] and
    [verifyConnection], in registration order. *)
Definition survivors (w : World) (c : SimpleEmailConfig) : list Adapter :=
  SimpleEmailService.opt_list (snd (SimpleEmailService.attempt_nodemailer w c)) ++
  SimpleEmailService.opt_list (snd (SimpleEmailService.attempt_sendgrid w c)).

Definition construction_events (w : World) (c : SimpleEmailConfig) : list Event :=
  fst (SimpleEmailService.attempt_nodemailer w c) ++ fst (SimpleEmailService.attempt_sendgrid w c).

(** [initialize()] on a fresh service. *)
Lemma initialize_new (w : World) (c : SimpleEmailConfig) :
  SimpleEmailService.initialize w (SimpleEmailService.new c) =
  match survivors w c with
  | [] => (SimpleEmailService.mk [] false c, construction_events w c,
           Throw SimpleEmailService.NoProvidersAvailable)
  | ps => (SimpleEmailService.mk (sort_providers (IP := adapter_provider w) ps) true c,
           construction_events w c, Ok tt)
  end.
Proof.
  unfold SimpleEmailService.initialize, survivors, construction_events,
    SimpleEmailService.bind, SimpleEmailService.get, SimpleEmailService.tell,
    SimpleEmailService.push, SimpleEmailService.put, SimpleEmailService.throw,
    SimpleEmailService.ret; cbn.
  destruct (SimpleEmailService.attempt_nodemailer w c) as [e1 [a1|]];
  destruct (SimpleEmailService.attempt_sendgrid w c) as [e2 [a2|]];
  cbn; rewrite ?app_nil_r; reflexivity.
Qed.

(** At most one adapter of each kind survives. *)
Lemma attempt_nodemailer_kind (w : World) (c : SimpleEmailConfig) :
  match snd (SimpleEmailService.attempt_nodemailer w c) with
  | Some a => adapter_name a = "nodemailer" | None => True end.
Proof.
  unfold SimpleEmailService.attempt_nodemailer.
  destruct (nodemailer c) as [n|]; cbn; auto.
  destruct (is_truthy (nm_enabled n)); cbn; auto.
  match goal with |- context [if ?b then _ else _] => destruct b end; reflexivity || exact I.
Qed.

Lemma attempt_sendgrid_kind (w : World) (c : SimpleEmailConfig) :
  match snd (SimpleEmailService.attempt_sendgrid w c) with
  | Some a => adapter_name a = "sendgrid" | None => True end.
Proof.
  unfold SimpleEmailService.attempt_sendgrid.
  destruct (sendgrid c) as [g|]; cbn; auto.
  destruct (is_truthy (sg_enabled g)); cbn; auto.
  destruct (SendGridProvider.initialize w (SendGridProvider.new w) (SimpleEmailService.sg_connection g))
    as [p1 [u|e]]; cbn; auto.
  destruct (fst (SendGridProvider.verifyConnection w p1)); reflexivity || exact I.
Qed.

Lemma adapter_priority_by_name (a : Adapter) :
  adapter_priority a = if String.eqb (adapter_name a) "sendgrid" then 2%Z else 1%Z.
Proof. destruct a; reflexivity. Qed.

(** The service after a successful [initialize()] with both providers. *)
Definition ready_both : SimpleEmailService.t :=
  fst (fst (SimpleEmailService.initialize world_up (SimpleEmailService.new cfg_both))).

(** [world_up] with the SendGrid API refusing every send. *)
Definition world_sg_refuses : World :=
  mkWorld (createTransport world_up) (fun _ _ => Reject "Service Unavailable" 9)
          (readFileSync world_up) (clock world_up).

(** ** Claims *)

(** C1. On a Ready service, [sendEmail] calls the adapters' [sendEmail] in
    list order and stops at the first result with [success = true], which it
    returns; an adapter returning [success = false] or throwing is skipped.
    If every adapter fails or throws, the result is the synthetic failure
    with provider "none", error "All mail providers failed" and duration 0. *)
Theorem sendEmail_failover (w : World) (s : SimpleEmailService.t) (o : EmailOptions)
    (Hready : SimpleEmailService.initialized s = true) :
  let '(_, ev, out) := SimpleEmailService.sendEmail w o s in
  (exists pre p post r,
      SimpleEmailService.providers s = pre ++ p :: post /\
      Forall (fails (IP := adapter_provider w) o) pre /\
      snd (adapter_sendEmail w p o) = Ok r /\ success r = true /\ out = Ok r /\
      ev = map (fun q => Invoked (adapter_name q)) (pre ++ [p]))
  \/ (Forall (fails (IP := adapter_provider w) o) (SimpleEmailService.providers s) /\
      out = Ok all_failed /\
      success all_failed = false /\ provider all_failed = "none" /\
      error all_failed = Some "All mail providers failed" /\ duration all_failed = 0%Z /\
      ev = map (fun q => Invoked (adapter_name q)) (SimpleEmailService.providers s)).
Proof.
  unfold SimpleEmailService.sendEmail, SimpleEmailService.bind, SimpleEmailService.get,
    SimpleEmailService.put, SimpleEmailService.tell, SimpleEmailService.ret.
  rewrite Hready. cbn.
  pose proof (try_providers_spec (IP := adapter_provider w) (SimpleEmailService.providers s) o) as Hspec.
  destruct (try_providers (IP := adapter_provider w) (SimpleEmailService.providers s) o)
    as [[ps ev] res] eqn:Ht.
  rewrite !app_nil_r.
  destruct Hspec as [(pre & p & post & r & Hps & Hpre & Hp & Hok & Hr & Hev)|(Hall & Hr & Hev)].
  - left. exists pre, p, post, r. subst. repeat split; auto.
  - right. subst. repeat split; auto.
Qed.

(** Witness for C1: SendGrid (priority 2, first) is refused, nodemailer's
    result is returned. *)
Lemma sendEmail_failover_witness :
  SimpleEmailService.initialized ready_both = true /\
  let '(_, ev, out) := SimpleEmailService.sendEmail world_sg_refuses msg0 ready_both in
  (exists pre p post r,
      SimpleEmailService.providers ready_both = pre ++ p :: post /\
      Forall (fails (IP := adapter_provider world_sg_refuses) msg0) pre /\
      snd (adapter_sendEmail world_sg_refuses p msg0) = Ok r /\ success r = true /\ out = Ok r /\
      ev = map (fun q => Invoked (adapter_name q)) (pre ++ [p]))
  \/ (Forall (fails (IP := adapter_provider world_sg_refuses) msg0) (SimpleEmailService.providers ready_both) /\
      out = Ok all_failed /\
      success all_failed = false /\ provider all_failed = "none" /\
      error all_failed = Some "All mail providers failed" /\ duration all_failed = 0%Z /\
      ev = map (fun q => Invoked (adapter_name q)) (SimpleEmailService.providers ready_both)).
Proof.
  split.
  - vm_compute. reflexivity.
  - apply (sendEmail_failover world_sg_refuses ready_both msg0). vm_compute. reflexivity.
Defined.

(** C2, counterexample. With nodemailer configured at priority 5 and
    SendGrid at priority 1, both surviving, [getProviders()] lists SendGrid
    first: the configured priorities are not the ones the sort reads. *)
Lemma providers_not_by_configured_priority :
  let '(s', _, o) := SimpleEmailService.initialize world_up (SimpleEmailService.new cfg_both) in
  o = Ok tt /\
  option_map nm_priority (nodemailer cfg_both) = Some (Some 5%Z) /\
  option_map sg_priority (sendgrid cfg_both) = Some (Some 1%Z) /\
  SimpleEmailService.getProviders s' = ["sendgrid"; "nodemailer"] /\
  SimpleEmailService.getProviders s' <> ["nodemailer"; "sendgrid"].
Proof.
  vm_compute. repeat split; try reflexivity. discriminate.
Qed.

(** C2 (amended). After a successful [initialize()], [getProviders()] lists
    the survivors by the adapters' fixed priorities (SendGrid 2 before
    nodemailer 1), whatever priorities the configuration gives. *)
Theorem initialize_orders_by_adapter_priority (w : World) (c : SimpleEmailConfig)
    (s' : SimpleEmailService.t) (ev : list Event)
    (Hinit : SimpleEmailService.initialize w (SimpleEmailService.new c) = (s', ev, Ok tt)) :
  SimpleEmailService.getProviders s' =
  map adapter_name (SimpleEmailService.opt_list (snd (SimpleEmailService.attempt_sendgrid w c))) ++
  map adapter_name (SimpleEmailService.opt_list (snd (SimpleEmailService.attempt_nodemailer w c))).
Proof.
  pose proof (attempt_nodemailer_kind w c) as K1.
  pose proof (attempt_sendgrid_kind w c) as K2.
  rewrite initialize_new in Hinit. unfold survivors in Hinit.
  destruct (snd (SimpleEmailService.attempt_nodemailer w c)) as [a1|];
  destruct (snd (SimpleEmailService.attempt_sendgrid w c)) as [a2|];
  cbn in Hinit; try discriminate; injection Hinit as <- _;
  unfold SimpleEmailService.getProviders; cbn; try reflexivity.
  destruct a1, a2; cbn in K1, K2 |- *; try discriminate; reflexivity.
Qed.

Lemma initialize_orders_by_adapter_priority_witness :
  SimpleEmailService.initialize world_up (SimpleEmailService.new cfg_both) =
    (ready_both, construction_events world_up cfg_both, Ok tt) /\
  SimpleEmailService.getProviders ready_both =
  map adapter_name (SimpleEmailService.opt_list (snd (SimpleEmailService.attempt_sendgrid world_up cfg_both))) ++
  map adapter_name (SimpleEmailService.opt_list (snd (SimpleEmailService.attempt_nodemailer world_up cfg_both))).
Proof.
  split.
  - vm_compute. reflexivity.
  - apply (initialize_orders_by_adapter_priority world_up cfg_both ready_both
             (construction_events world_up cfg_both)).
    vm_compute. reflexivity.
Defined.

(** C3. [initialize()] on a fresh service throws the "No mail providers
    could be initialized" error exactly when no adapter survives
    construction, [initialize] and [verifyConnection]; otherwise it returns
    normally and the service is Ready. *)
Theorem initialize_fails_iff_no_survivor (w : World) (c : SimpleEmailConfig) :
  let '(s', _, o) := SimpleEmailService.initialize w (SimpleEmailService.new c) in
  match survivors w c with
  | [] => o = Throw SimpleEmailService.NoProvidersAvailable /\ SimpleEmailService.initialized s' = false
  | _ :: _ => o = Ok tt /\ SimpleEmailService.initialized s' = true
  end.
Proof.
  rewrite initialize_new. destruct (survivors w c); cbn; auto.
Qed.

(** C9. On a Ready service [initialize()] returns at once: no adapter is
    constructed, no event happens and the state, with its adapter list, is
    unchanged. *)
Theorem initialize_idempotent (w : World) (s : SimpleEmailService.t)
    (Hready : SimpleEmailService.initialized s = true) :
  SimpleEmailService.initialize w s = (s, [], Ok tt).
Proof.
  unfold SimpleEmailService.initialize, SimpleEmailService.bind, SimpleEmailService.get,
    SimpleEmailService.ret.
  rewrite Hready. reflexivity.
Qed.

Lemma initialize_idempotent_witness :
  SimpleEmailService.initialized ready_both = true /\
  SimpleEmailService.initialize world_up ready_both = (ready_both, [], Ok tt).
Proof.
  split.
  - vm_compute. reflexivity.
  - apply initialize_idempotent. vm_compute. reflexivity.
Defined.

(** An adapter whose [initialize] has run: nodemailer holds a transporter,
    SendGrid's [isInitialized] is set. *)
Definition adapter_ready (a : Adapter) : bool :=
  match a with
  | ANodemailer p => match NodemailerProvider.transporter p with Some _ => true | None => false end
  | ASendGrid p => SendGridProvider.isInitialized p
  end.

(** The transport call [sendEmail] makes for an adapter: [sendMail] on
    nodemailer's transporter with the [mailOptions] it builds, or
    [sgMail.send] with SendGrid's [mailData]; none before [initialize]. *)
Definition adapter_transport (w : World) (a : Adapter) (o : EmailOptions) : option TOutcome :=
  match a with
  | ANodemailer p =>
      match NodemailerProvider.transporter p with
      | None => None
      | Some tr =>
          Some (transporter_sendMail tr
                  (mkMailOptions (NodemailerProvider.from_of p) (join ", " (to o))
                     (subject o) (text o) (html o)))
      end
  | ASendGrid p =>
      if SendGridProvider.isInitialized p then
        Some (sgMailSend w (SendGridProvider.key_of p)
                (mkSgMailData (SendGridProvider.from_of p) (to o) (subject o)
                   (SendGridProvider.content_of o)))
      else None
  end.

(** The message of the error [sendEmail] throws before [initialize]. *)
Definition adapter_not_initialized (a : Adapter) : string :=
  match a with
  | ANodemailer _ => "Nodemailer provider not initialized"
  | ASendGrid _ => "SendGrid provider not initialized"
  end.

Definition nm_conn0 : NmConnection :=
  mkNmConnection (Some "smtp.example.com") (Some 587%Z) None (Some "u") (Some "pw") (Some "noreply@example.com").

(** A nodemailer adapter after [initialize] in [world_up]. *)
Definition nm_ready : NodemailerProvider.t :=
  fst (NodemailerProvider.initialize world_up (NodemailerProvider.new world_up) nm_conn0).

(** A SendGrid adapter after [initialize], with 100 recorded successes. *)
Definition sg_busy : SendGridProvider.t :=
  SendGridProvider.mk (Some (mkSgConnection (Some "SG.key") (Some "noreply@example.com"))) true
    (Some "SG.key") (mkMetrics 100 100 0 100 700 1000 "").

(** The frames of a failed and of a successful send on the metrics. *)
Definition failure_frame (m m' : Metrics) : Prop :=
  successCount m' = successCount m /\ sentToday m' = sentToday m /\
  sentThisHour m' = sentThisHour m /\ totalResponseTime m' = totalResponseTime m /\
  lastSuccessfulSend m' = lastSuccessfulSend m /\ errorCount m' = (errorCount m + 1)%Z.

Definition success_frame (m m' : Metrics) : Prop :=
  errorCount m' = errorCount m /\ lastError m' = lastError m.

Lemma updateMetrics_failure_frame (d : Z) (e : option string) (now : Z) (m : Metrics) :
  failure_frame m (updateMetrics false d e now m) /\
  lastError (updateMetrics false d e now m) = or_default e "Unknown error".
Proof. unfold failure_frame; cbn; repeat split; reflexivity. Qed.

Lemma updateMetrics_success_frame (d : Z) (e : option string) (now : Z) (m : Metrics) :
  success_frame m (updateMetrics true d e now m).
Proof. unfold success_frame; cbn; split; reflexivity. Qed.

Lemma gt95_spec (q : Q) : gt95 q = true <-> inject_Z 95 < q.
Proof.
  unfold gt95. rewrite negb_true_iff. split.
  - intros H. apply Qnot_le_lt. intros Hle. apply Qle_bool_iff in Hle. congruence.
  - intros H. destruct (Qle_bool q (inject_Z 95)) eqn:E; auto.
    apply Qle_bool_iff in E. exfalso. apply (Qlt_not_le _ _ H E).
Qed.

(** C4, counterexample. A nodemailer adapter that was never initialized,
    and a SendGrid adapter after [shutdown()], throw from [sendEmail]. *)
Lemma adapter_sendEmail_throws_when_not_initialized :
  snd (adapter_sendEmail world_up (ANodemailer (NodemailerProvider.new world_up)) msg0) =
    Throw (ErrorMsg "Nodemailer provider not initialized") /\
  snd (adapter_sendEmail world_up (ASendGrid (SendGridProvider.shutdown sg_busy)) msg0) =
    Throw (ErrorMsg "SendGrid provider not initialized").
Proof. split; reflexivity. Qed.

(** C4 (amended). [sendEmail] of an adapter makes its one transport call
    exactly when the adapter is initialized. Without that call it raises
    "... provider not initialized" and leaves the adapter as it was. When the
    transport call rejects with [msg], it does not raise: the result has
    [success = false], [error = Some msg] and the transport's duration, and the
    metrics record the failure ([errorCount] + 1, [msg] as [lastError]). When
    the call resolves, the result has [success = true] and no error, and the
    metrics record a success. *)
Theorem adapter_sendEmail_total_when_initialized (w : World) (a : Adapter) (o : EmailOptions) :
  (adapter_ready a = true <-> adapter_transport w a o <> None) /\
  match adapter_transport w a o with
  | None =>
      adapter_sendEmail w a o = (a, Throw (ErrorMsg (adapter_not_initialized a)))
  | Some (Reject msg dur) =>
      exists a' r, adapter_sendEmail w a o = (a', Ok r) /\
        success r = false /\ error r = Some msg /\ duration r = dur /\
        provider r = adapter_name a /\ adapter_name a' = adapter_name a /\
        adapter_metrics a' = updateMetrics false dur (Some msg) 0 (adapter_metrics a)
  | Some (Resolve _ dur fin) =>
      exists a' r, adapter_sendEmail w a o = (a', Ok r) /\
        success r = true /\ error r = None /\ duration r = dur /\
        provider r = adapter_name a /\ adapter_name a' = adapter_name a /\
        adapter_metrics a' = updateMetrics true dur None fin (adapter_metrics a)
  end.
Proof.
  destruct a as [p|p]; cbn.
  - unfold NodemailerProvider.sendEmail.
    destruct (NodemailerProvider.transporter p) as [tr|]; cbn.
    + split; [split; [intros _; discriminate|reflexivity]|].
      destruct (transporter_sendMail tr _) as [info dur fin|msg dur]; cbn;
        eexists _, _; repeat split.
    + split; [split; [discriminate|intros H; contradiction]|reflexivity].
  - unfold SendGridProvider.sendEmail.
    destruct (SendGridProvider.isInitialized p) eqn:Hi; cbn.
    + split; [split; [intros _; discriminate|reflexivity]|].
      destruct (sgMailSend w _ _) as [info dur fin|msg dur]; cbn;
        eexists _, _; repeat split.
    + split; [split; [discriminate|intros H; contradiction]|].
      destruct p; cbn in Hi |- *; subst; reflexivity.
Qed.

(** C5, counterexample. A SendGrid adapter with 100 successes reports
    itself healthy while its connectivity check fails, and its health check
    makes no network call at all. *)
Lemma sendgrid_health_skips_verification :
  isHealthy (fst (adapter_getHealthStatus (ASendGrid sg_busy))) = true /\
  snd (adapter_getHealthStatus (ASendGrid sg_busy)) = [] /\
  fst (adapter_verifyConnection world_down (ASendGrid sg_busy)) = false /\
  snd (adapter_verifyConnection world_down (ASendGrid sg_busy)) <> [].
Proof. vm_compute. repeat split; try reflexivity. discriminate. Qed.

(** C5 (amended). Nodemailer's health check runs [verifyConnection()] (its
    network calls are the check's) and is healthy exactly when the check
    passes and the success rate exceeds 95; SendGrid's makes no network call
    and is healthy exactly when the adapter is initialized and the success
    rate exceeds 95. The rate is successes/(successes+errors)*100, and 0
    when nothing was recorded. *)
Theorem health_status_by_adapter (w : World) (a : Adapter) :
  let '(hs, calls) := adapter_getHealthStatus a in
  successRate hs = compute_successRate (adapter_metrics a) /\
  match a with
  | ANodemailer _ =>
      (isHealthy hs = true <->
         fst (adapter_verifyConnection w a) = true /\ inject_Z 95 < successRate hs) /\
      calls = snd (adapter_verifyConnection w a)
  | ASendGrid p =>
      (isHealthy hs = true <->
         SendGridProvider.isInitialized p = true /\ inject_Z 95 < successRate hs) /\
      calls = []
  end.
Proof.
  destruct a as [p|p]; cbn.
  - unfold NodemailerProvider.getHealthStatus.
    destruct (NodemailerProvider.verifyConnection p) as [v calls]; cbn.
    split; [reflexivity|]. split; [|reflexivity].
    rewrite andb_true_iff, gt95_spec. tauto.
  - split; [reflexivity|]. split; [|reflexivity].
    rewrite andb_true_iff, gt95_spec. tauto.
Qed.

(** C6, counterexample. The rendered HTML of the spec's template is the
    whole file rendered: the subject directive stays in it. *)
Lemma welcome_html_keeps_directive :
  Template.resolve world_up "./templates/welcome.html" [("name", "Ada")] =
    Ok ("Hi Ada", ("<!-- SUBJECT: Hi Ada -->" ++ nl ++ "<p>Ada</p>")%string) /\
  Template.resolve world_up "./templates/welcome.html" [("name", "Ada")] <>
    Ok ("Hi Ada", "<p>Ada</p>").
Proof. vm_compute. split; [reflexivity|discriminate]. Qed.

(** C6 (amended). For the spec's template file, the subject is "Hi Ada" and
    the HTML is the rendering of the whole file, directive comment included;
    for a file in which the subject pattern does not match, the subject is
    "Email Notification" and the HTML is the rendered file. *)
Theorem template_subject_and_html (w : World) (path : string)
    (Hfile : readFileSync w path = Some welcome_file) :
  Template.resolve w path [("name", "Ada")] =
    Ok ("Hi Ada", ("<!-- SUBJECT: Hi Ada -->" ++ nl ++ "<p>Ada</p>")%string) /\
  forall w' path' data src html,
    readFileSync w' path' = Some src ->
    Template.str_match Template.subject_re (Template.chars src) = None ->
    Template.render (Template.chars src) data = Ok html ->
    Template.resolve w' path' data = Ok ("Email Notification", string_of_list_ascii html).
Proof.
  split.
  - unfold Template.resolve. rewrite Hfile. vm_compute. reflexivity.
  - intros w' path' data src html Hf Hm Hr.
    unfold Template.resolve. rewrite Hf, Hr, Hm. reflexivity.
Qed.

Lemma template_subject_and_html_witness :
  readFileSync world_up "./templates/welcome.html" = Some welcome_file /\
  Template.resolve world_up "./templates/welcome.html" [("name", "Ada")] =
    Ok ("Hi Ada", ("<!-- SUBJECT: Hi Ada -->" ++ nl ++ "<p>Ada</p>")%string) /\
  Template.resolve world_up "./templates/plain.html" [("name", "Ada")] =
    Throw (ErrorMsg "ENOENT: no such file or directory, open './templates/plain.html'").
Proof.
  split; [reflexivity|]. split.
  - apply (template_subject_and_html world_up "./templates/welcome.html"). reflexivity.
  - reflexivity.
Defined.

(** C7. When the template cannot be resolved, [sendTemplateEmail] returns a
    failure with provider "template-loader", calls no adapter (no event) and
    leaves the service unchanged. *)
Theorem sendTemplateEmail_resolution_failure (w : World) (s : SimpleEmailService.t)
    (templateName : string) (data : Template.Data) (options : EmailOptions) (e : Exn)
    (Hfail : Template.resolve w (SimpleEmailService.templatePath s templateName) data = Throw e) :
  exists r, SimpleEmailService.sendTemplateEmail w templateName data options s = (s, [], Ok r) /\
    success r = false /\ provider r = "template-loader".
Proof.
  unfold SimpleEmailService.sendTemplateEmail, SimpleEmailService.bind,
    SimpleEmailService.get, SimpleEmailService.ret.
  rewrite Hfail. destruct e as [msg]. eexists. repeat split.
Qed.

Lemma sendTemplateEmail_resolution_failure_witness :
  Template.resolve world_up (SimpleEmailService.templatePath ready_both "missing") [] =
    Throw (ErrorMsg "ENOENT: no such file or directory, open './templates/missing.html'") /\
  exists r, SimpleEmailService.sendTemplateEmail world_up "missing" [] msg0 ready_both =
    (ready_both, [], Ok r) /\ success r = false /\ provider r = "template-loader".
Proof.
  split.
  - vm_compute. reflexivity.
  - apply (sendTemplateEmail_resolution_failure world_up ready_both "missing" [] msg0
             (ErrorMsg "ENOENT: no such file or directory, open './templates/missing.html'")).
    vm_compute. reflexivity.
Defined.

(** C8, counterexample. Nodemailer's [initialize] succeeds with no
    credentials at all. *)
Lemma nodemailer_initialize_without_credentials :
  snd (NodemailerProvider.initialize world_up (NodemailerProvider.new world_up)
         (mkNmConnection None None None None None None)) = Ok tt.
Proof. reflexivity. Qed.

(** C8 (amended). SendGrid's [initialize] throws "SendGrid API key is
    required" exactly when the API key is missing or empty; nodemailer's
    [initialize] checks nothing and never throws. *)
Theorem initialize_credential_checks (w : World) :
  (forall p cfg, snd (SendGridProvider.initialize w p cfg) =
     if String.eqb (or_default (gc_apiKey cfg) "") "" then Throw (ErrorMsg "SendGrid API key is required")
     else Ok tt) /\
  (forall p cfg, snd (NodemailerProvider.initialize w p cfg) = Ok tt).
Proof.
  split; intros p cfg; unfold SendGridProvider.initialize, NodemailerProvider.initialize.
  - destruct (String.eqb (or_default (gc_apiKey cfg) "") ""); reflexivity.
  - reflexivity.
Qed.

(** C10. A send attempt that returns a failed result changes only
    [errorCount] (by one) and [lastError] among the metrics; one that
    returns a successful result leaves [errorCount] and [lastError]
    unchanged. *)
Theorem adapter_send_metrics_frame (w : World) (a a' : Adapter) (o : EmailOptions) (r : EmailResult)
    (Hsend : adapter_sendEmail w a o = (a', Ok r)) :
  (success r = false -> failure_frame (adapter_metrics a) (adapter_metrics a')) /\
  (success r = true -> success_frame (adapter_metrics a) (adapter_metrics a')).
Proof.
  destruct a as [p|p]; cbn in Hsend.
  - unfold NodemailerProvider.sendEmail in Hsend.
    destruct (NodemailerProvider.transporter p) as [tr|]; [|discriminate].
    destruct (transporter_sendMail tr _) as [info dur fin|msg dur];
      injection Hsend as <- <-; cbn; split; intros Hs; try discriminate.
    + unfold success_frame; split; reflexivity.
    + unfold failure_frame; repeat split.
  - unfold SendGridProvider.sendEmail in Hsend.
    destruct (negb (SendGridProvider.isInitialized p)); [discriminate|].
    destruct (sgMailSend w _ _) as [info dur fin|msg dur];
      injection Hsend as <- <-; cbn; split; intros Hs; try discriminate.
    + unfold success_frame; split; reflexivity.
    + unfold failure_frame; repeat split.
Qed.

Lemma adapter_send_metrics_frame_witness :
  adapter_sendEmail world_down (ASendGrid sg_busy) msg0 =
    (fst (adapter_sendEmail world_down (ASendGrid sg_busy) msg0),
     Ok (mkEmailResult false None None (Some "Unauthorized") 4 "sendgrid")) /\
  (false = false -> failure_frame (adapter_metrics (ASendGrid sg_busy))
                      (adapter_metrics (fst (adapter_sendEmail world_down (ASendGrid sg_busy) msg0)))) /\
  (false = true -> success_frame (adapter_metrics (ASendGrid sg_busy))
                      (adapter_metrics (fst (adapter_sendEmail world_down (ASendGrid sg_busy) msg0)))).
Proof.
  split; [reflexivity|].
  apply (adapter_send_metrics_frame world_down (ASendGrid sg_busy)
           (fst (adapter_sendEmail world_down (ASendGrid sg_busy) msg0)) msg0
           (mkEmailResult false None None (Some "Unauthorized") 4 "sendgrid")).
  reflexivity.
Defined.

(** ** Further properties of the code *)

(** No provider configured at all. *)
(** A world where the SMTP relay does not answer [verify()] and the
    SendGrid API refuses everything. *)
Definition world_unreachable : World :=
  mkWorld (fun _ => mkTransporter false (fun _ => Reject "ECONNREFUSED" 3))
          (fun _ _ => Reject "Unauthorized" 4)
          (fun _ => None)
          1000.

Definition cfg_none : SimpleEmailConfig := mkSimpleEmailConfig "svc" None None None.

Definition is_construction (e : Event) : bool :=
  match e with Constructed _ => true | Invoked _ => false end.

(** Lazy initialization: [sendEmail] on a fresh service whose adapters all
    fail rejects with the initialization error instead of returning a failed
    result, and leaves the service as it was constructed. *)
Theorem sendEmail_rejects_without_providers (w : World) (c : SimpleEmailConfig) (o : EmailOptions)
    (Hnone : survivors w c = []) :
  SimpleEmailService.sendEmail w o (SimpleEmailService.new c) =
    (SimpleEmailService.new c, construction_events w c, Throw SimpleEmailService.NoProvidersAvailable).
Proof.
  pose proof (initialize_new w c) as Hi. rewrite Hnone in Hi.
  unfold SimpleEmailService.sendEmail, SimpleEmailService.bind, SimpleEmailService.get.
  cbn [SimpleEmailService.initialized SimpleEmailService.new].
  rewrite Hi. reflexivity.
Qed.

Lemma sendEmail_rejects_without_providers_witness :
  survivors world_up cfg_none = [] /\
  SimpleEmailService.sendEmail world_up msg0 (SimpleEmailService.new cfg_none) =
    (SimpleEmailService.new cfg_none, construction_events world_up cfg_none,
     Throw SimpleEmailService.NoProvidersAvailable).
Proof.
  split; [reflexivity|]. apply sendEmail_rejects_without_providers. reflexivity.
Defined.

(** [sendTemplateEmail] does not catch that rejection: the [return
    this.sendEmail(...)] inside its [try] is not awaited, so with a template
    that resolves and no adapter surviving, it rejects as well. *)
Theorem sendTemplateEmail_propagates_init_failure (w : World) (c : SimpleEmailConfig)
    (templateName : string) (data : Template.Data) (options : EmailOptions) (subj body : string)
    (Hres : Template.resolve w (SimpleEmailService.templatePath (SimpleEmailService.new c) templateName) data
            = Ok (subj, body))
    (Hnone : survivors w c = []) :
  SimpleEmailService.sendTemplateEmail w templateName data options (SimpleEmailService.new c) =
    (SimpleEmailService.new c, construction_events w c, Throw SimpleEmailService.NoProvidersAvailable).
Proof.
  unfold SimpleEmailService.sendTemplateEmail, SimpleEmailService.bind at 1, SimpleEmailService.get at 1.
  rewrite Hres. rewrite (sendEmail_rejects_without_providers w c _ Hnone). reflexivity.
Qed.

Lemma sendTemplateEmail_propagates_init_failure_witness :
  Template.resolve world_up (SimpleEmailService.templatePath (SimpleEmailService.new cfg_none) "welcome")
    [("name", "Ada")] = Ok ("Hi Ada", ("<!-- SUBJECT: Hi Ada -->" ++ nl ++ "<p>Ada</p>")%string) /\
  survivors world_up cfg_none = [] /\
  SimpleEmailService.sendTemplateEmail world_up "welcome" [("name", "Ada")] msg0 (SimpleEmailService.new cfg_none) =
    (SimpleEmailService.new cfg_none, construction_events world_up cfg_none,
     Throw SimpleEmailService.NoProvidersAvailable).
Proof.
  split; [vm_compute; reflexivity|]. split; [reflexivity|].
  apply (sendTemplateEmail_propagates_init_failure world_up cfg_none "welcome" [("name", "Ada")] msg0
           "Hi Ada" ("<!-- SUBJECT: Hi Ada -->" ++ nl ++ "<p>Ada</p>")%string);
    [vm_compute|]; reflexivity.
Defined.

(** A failed [initialize()] leaves the service exactly as constructed, so
    the next call attempts (and constructs) every enabled adapter again. *)
Theorem failed_initialize_retries (w : World) (c : SimpleEmailConfig)
    (Hnone : survivors w c = []) :
  fst (fst (SimpleEmailService.initialize w (SimpleEmailService.new c))) = SimpleEmailService.new c /\
  SimpleEmailService.initialize w (fst (fst (SimpleEmailService.initialize w (SimpleEmailService.new c)))) =
    SimpleEmailService.initialize w (SimpleEmailService.new c).
Proof.
  pose proof (initialize_new w c) as Hi. rewrite Hnone in Hi.
  rewrite Hi. cbn [fst]. split; [reflexivity|]. exact Hi.
Qed.

Lemma failed_initialize_retries_witness :
  survivors world_unreachable cfg_both = [] /\
  construction_events world_unreachable cfg_both =
    [Constructed NodemailerProvider.pname; Constructed SendGridProvider.pname] /\
  fst (fst (SimpleEmailService.initialize world_unreachable (SimpleEmailService.new cfg_both))) =
    SimpleEmailService.new cfg_both /\
  SimpleEmailService.initialize world_unreachable
    (fst (fst (SimpleEmailService.initialize world_unreachable (SimpleEmailService.new cfg_both)))) =
    SimpleEmailService.initialize world_unreachable (SimpleEmailService.new cfg_both).
Proof.
  split; [vm_compute; reflexivity|]. split; [vm_compute; reflexivity|].
  apply failed_initialize_retries. vm_compute. reflexivity.
Defined.

Lemma attempt_nodemailer_events (w : World) (c : SimpleEmailConfig) :
  fst (SimpleEmailService.attempt_nodemailer w c) =
  if match nodemailer c with Some n => is_truthy (nm_enabled n) | None => false end
  then [Constructed "nodemailer"] else [].
Proof.
  unfold SimpleEmailService.attempt_nodemailer.
  destruct (nodemailer c) as [n|]; [|reflexivity].
  destruct (is_truthy (nm_enabled n)); reflexivity.
Qed.

Lemma attempt_sendgrid_events (w : World) (c : SimpleEmailConfig) :
  fst (SimpleEmailService.attempt_sendgrid w c) =
  if match sendgrid c with Some g => is_truthy (sg_enabled g) | None => false end
  then [Constructed "sendgrid"] else [].
Proof.
  unfold SimpleEmailService.attempt_sendgrid.
  destruct (sendgrid c) as [g|]; [|reflexivity].
  destruct (is_truthy (sg_enabled g)); [|reflexivity].
  destruct (SendGridProvider.initialize _ _ _) as [p1 r]. reflexivity.
Qed.

Lemma is_truthy_true (b : option bool) : is_truthy b = true <-> b = Some true.
Proof. destruct b as [[|]|]; cbn; split; congruence. Qed.

Lemma in_construction_events (w : World) (c : SimpleEmailConfig) :
  (In (Constructed "nodemailer") (construction_events w c) <->
     match nodemailer c with Some n => is_truthy (nm_enabled n) | None => false end = true) /\
  (In (Constructed "sendgrid") (construction_events w c) <->
     match sendgrid c with Some g => is_truthy (sg_enabled g) | None => false end = true).
Proof.
  unfold construction_events. rewrite attempt_nodemailer_events, attempt_sendgrid_events.
  destruct (match nodemailer c with Some n => is_truthy (nm_enabled n) | None => false end);
  destruct (match sendgrid c with Some g => is_truthy (sg_enabled g) | None => false end);
  cbn; intuition congruence.
Qed.

Lemma section_enabled {A} (o : option A) (en : A -> option bool) :
  match o with Some n => is_truthy (en n) | None => false end = true <->
  exists n, o = Some n /\ en n = Some true.
Proof.
  destruct o as [n|].
  - rewrite is_truthy_true. split; [eauto|]. intros (x & Hx & He). injection Hx as <-. exact He.
  - split; [discriminate|]. intros (x & Hx & _). discriminate.
Qed.

(** [initialize()] constructs an adapter exactly for the providers whose
    [enabled] flag is [true]; a missing provider section or an unset or
    false flag constructs nothing. *)
Theorem initialize_constructs_enabled_only (w : World) (c : SimpleEmailConfig) :
  let '(_, ev, _) := SimpleEmailService.initialize w (SimpleEmailService.new c) in
  (In (Constructed "nodemailer") ev <-> exists n, nodemailer c = Some n /\ nm_enabled n = Some true) /\
  (In (Constructed "sendgrid") ev <-> exists g, sendgrid c = Some g /\ sg_enabled g = Some true).
Proof.
  rewrite initialize_new.
  destruct (in_construction_events w c) as [H1 H2].
  rewrite (section_enabled (nodemailer c) nm_enabled) in H1.
  rewrite (section_enabled (sendgrid c) sg_enabled) in H2.
  destruct (survivors w c); split; assumption.
Qed.

Lemma adapter_sendEmail_name (w : World) (a : Adapter) (o : EmailOptions) :
  adapter_name (fst (adapter_sendEmail w a o)) = adapter_name a.
Proof.
  destruct a as [p|p]; cbn.
  - destruct (NodemailerProvider.sendEmail p o); reflexivity.
  - destruct (SendGridProvider.sendEmail w p o); reflexivity.
Qed.

Lemma try_providers_names (w : World) (ps : list Adapter) (o : EmailOptions) :
  map adapter_name (fst (fst (try_providers (IP := adapter_provider w) ps o))) = map adapter_name ps.
Proof.
  induction ps as [|a rest IH]; cbn; [reflexivity|].
  pose proof (adapter_sendEmail_name w a o) as Hn.
  destruct (adapter_sendEmail w a o) as [a' out]; cbn in Hn.
  destruct out as [r|e]; [destruct (success r)|];
  try (destruct (try_providers (IP := adapter_provider w) rest o) as [[ps' ev] res]; cbn in IH |- *);
  cbn; rewrite Hn; try rewrite IH; reflexivity.
Qed.

(** On a Ready service, [sendEmail] keeps the adapters and their order
    ([getProviders()] is unchanged), stays Ready and constructs no adapter. *)
Theorem sendEmail_keeps_providers (w : World) (s : SimpleEmailService.t) (o : EmailOptions)
    (Hready : SimpleEmailService.initialized s = true) :
  let '(s', ev, _) := SimpleEmailService.sendEmail w o s in
  SimpleEmailService.getProviders s' = SimpleEmailService.getProviders s /\
  SimpleEmailService.initialized s' = true /\
  forallb (fun e => negb (is_construction e)) ev = true.
Proof.
  pose proof (try_providers_names w (SimpleEmailService.providers s) o) as Hn.
  pose proof (try_providers_spec (IP := adapter_provider w) (SimpleEmailService.providers s) o) as Hspec.
  unfold SimpleEmailService.sendEmail, SimpleEmailService.bind, SimpleEmailService.get,
    SimpleEmailService.put, SimpleEmailService.tell, SimpleEmailService.ret.
  rewrite Hready. cbn.
  destruct (try_providers (IP := adapter_provider w) (SimpleEmailService.providers s) o)
    as [[ps ev] res]; cbn in Hn |- *.
  rewrite !app_nil_r. unfold SimpleEmailService.getProviders. cbn.
  split; [exact Hn|]. split; [exact Hready|].
  destruct Hspec as [(pre & p & post & r & _ & _ & _ & _ & _ & ->)|(_ & _ & ->)];
    apply forallb_forall; intros e He; apply in_map_iff in He as (q & <- & _); reflexivity.
Qed.

Lemma sendEmail_keeps_providers_witness :
  SimpleEmailService.initialized ready_both = true /\
  let '(s', ev, _) := SimpleEmailService.sendEmail world_sg_refuses msg0 ready_both in
  SimpleEmailService.getProviders s' = SimpleEmailService.getProviders ready_both /\
  SimpleEmailService.initialized s' = true /\
  forallb (fun e => negb (is_construction e)) ev = true.
Proof.
  split; [vm_compute; reflexivity|]. apply sendEmail_keeps_providers. vm_compute. reflexivity.
Defined.

(** [createEmailService(config)] resolves exactly when some adapter
    survives; the service it returns is Ready, so its later sends never
    construct adapters. *)
Theorem createEmailService_ready (w : World) (c : SimpleEmailConfig) :
  match createEmailService w c with
  | (_, Ok s) => survivors w c <> [] /\ SimpleEmailService.initialized s = true /\
                 SimpleEmailService.initialize w s = (s, [], Ok tt)
  | (_, Throw e) => survivors w c = [] /\ e = SimpleEmailService.NoProvidersAvailable
  end.
Proof.
  unfold createEmailService. rewrite initialize_new.
  destruct (survivors w c) as [|a rest]; cbn.
  - split; reflexivity.
  - split; [discriminate|]. split; reflexivity.
Qed.

(** An enabled nodemailer adapter is kept exactly when the transport built
    from its configuration passes [verify()]. *)
Theorem nodemailer_survives_iff (w : World) (c : SimpleEmailConfig) :
  snd (SimpleEmailService.attempt_nodemailer w c) <> None <->
  exists n, nodemailer c = Some n /\ nm_enabled n = Some true /\
    transporter_verify (createTransport w (SimpleEmailService.nm_connection n)) = true.
Proof.
  unfold SimpleEmailService.attempt_nodemailer.
  destruct (nodemailer c) as [n|].
  - destruct (is_truthy (nm_enabled n)) eqn:E; cbn.
    + apply is_truthy_true in E.
      destruct (transporter_verify (createTransport w (SimpleEmailService.nm_connection n))) eqn:V; cbn.
      * split; [intros _; eauto|discriminate].
      * split; [congruence|]. intros (x & Hx & _ & Hv). injection Hx as <-. congruence.
    + split; [congruence|]. intros (x & Hx & He & _). injection Hx as <-.
      rewrite He in E. discriminate.
  - cbn. split; [congruence|]. intros (x & Hx & _). discriminate.
Qed.

(** An enabled SendGrid adapter is kept exactly when its API key is set and
    non-empty and the SendGrid API accepts the self-addressed test email
    that [verifyConnection] sends. *)
Theorem sendgrid_survives_iff (w : World) (c : SimpleEmailConfig) :
  snd (SimpleEmailService.attempt_sendgrid w c) <> None <->
  exists g, sendgrid c = Some g /\ sg_enabled g = Some true /\
    or_default (sg_apiKey g) "" <> "" /\
    exists info d f,
      sgMailSend w (or_default (sg_apiKey g) "")
        (mkSgMailData (sg_from g) (match sg_from g with Some x => [x] | None => [] end)
           "SendGrid Connection Test" [("text/plain", "This is a connection test email")])
      = Resolve info d f.
Proof.
  unfold SimpleEmailService.attempt_sendgrid.
  destruct (sendgrid c) as [g|]; cbn.
  2:{ split; [congruence|]. intros (x & Hx & _). discriminate. }
  destruct (is_truthy (sg_enabled g)) eqn:E; cbn.
  2:{ split; [congruence|]. intros (x & Hx & He & _). injection Hx as <-.
      rewrite He in E. discriminate. }
  apply is_truthy_true in E.
  unfold SendGridProvider.initialize; cbn.
  destruct (String.eqb (or_default (sg_apiKey g) "") "") eqn:K; cbn.
  - apply String.eqb_eq in K. split; [congruence|].
    intros (x & Hx & _ & Hk & _). injection Hx as <-. contradiction.
  - apply String.eqb_neq in K.
    unfold SendGridProvider.verifyConnection, SendGridProvider.key_of, SendGridProvider.test_mail,
      SendGridProvider.from_of; cbn.
    assert (Hkey : or_default (sg_apiKey g) "" = or_default (sg_apiKey g) "") by reflexivity.
    destruct (sgMailSend w (or_default (sg_apiKey g) "") _) as [info d f|m d] eqn:S; cbn.
    + split; [intros _; exists g; repeat split; eauto|discriminate].
    + split; [congruence|]. intros (x & Hx & _ & _ & info & d' & f & Hs). injection Hx as <-.
      congruence.
Qed.

(** [sendBulkEmails] on nodemailer is the sequence of single sends: sending
    [l1 ++ l2] is sending [l1], then [l2] from the adapter state [l1] left,
    and there is exactly one result per message, in input order. *)
Theorem nodemailer_sendBulkEmails_sequential (p : NodemailerProvider.t) (l1 l2 : list EmailOptions) :
  NodemailerProvider.sendBulkEmails p (l1 ++ l2) =
    (let '(p1, r1) := NodemailerProvider.sendBulkEmails p l1 in
     let '(p2, r2) := NodemailerProvider.sendBulkEmails p1 l2 in (p2, r1 ++ r2)) /\
  length (snd (NodemailerProvider.sendBulkEmails p l1)) = length l1.
Proof.
  revert p. induction l1 as [|e rest IH]; intros p; cbn.
  - destruct (NodemailerProvider.sendBulkEmails p l2); split; reflexivity.
  - destruct (NodemailerProvider.sendEmail p e) as [p1 o]. cbn.
    destruct (IH p1) as [Happ Hlen]. rewrite Happ.
    destruct (NodemailerProvider.sendBulkEmails p1 rest) as [p2 r2] eqn:E2; cbn in Hlen |- *.
    destruct (NodemailerProvider.sendBulkEmails p2 l2) as [p3 r3]. split; [reflexivity|].
    cbn. rewrite Hlen. reflexivity.
Qed.

(** On a nodemailer adapter that was never initialized, [sendBulkEmails]
    does not throw: every message gets a failed result with the error
    "Nodemailer provider not initialized" and duration 0, and the adapter is
    unchanged. *)
Theorem nodemailer_sendBulkEmails_uninitialized (p : NodemailerProvider.t) (emails : list EmailOptions)
    (Hnone : NodemailerProvider.transporter p = None) :
  NodemailerProvider.sendBulkEmails p emails =
    (p, map (fun _ => mkEmailResult false None None (Some "Nodemailer provider not initialized") 0
                        NodemailerProvider.pname) emails).
Proof.
  induction emails as [|e rest IH]; cbn; [reflexivity|].
  unfold NodemailerProvider.sendEmail at 1. rewrite Hnone. cbn. rewrite IH. reflexivity.
Qed.

Lemma nodemailer_sendBulkEmails_uninitialized_witness :
  NodemailerProvider.transporter (NodemailerProvider.new world_up) = None /\
  NodemailerProvider.sendBulkEmails (NodemailerProvider.new world_up) [msg0; msg0] =
    (NodemailerProvider.new world_up,
     map (fun _ => mkEmailResult false None None (Some "Nodemailer provider not initialized") 0
                     NodemailerProvider.pname) [msg0; msg0]).
Proof.
  split; [reflexivity|]. apply nodemailer_sendBulkEmails_uninitialized. reflexivity.
Defined.

Definition count_success (rs : list EmailResult) : Z := Z.of_nat (length (filter success rs)).
Definition count_failure (rs : list EmailResult) : Z :=
  Z.of_nat (length (filter (fun r => negb (success r)) rs)).

Lemma nodemailer_sendEmail_initialized (p : NodemailerProvider.t) (tr : Transporter) (e : EmailOptions)
    (Htr : NodemailerProvider.transporter p = Some tr) :
  exists p' r, NodemailerProvider.sendEmail p e = (p', Ok r) /\
    NodemailerProvider.transporter p' = Some tr /\
    successCount (NodemailerProvider.metrics p') =
      (successCount (NodemailerProvider.metrics p) + if success r then 1 else 0)%Z /\
    errorCount (NodemailerProvider.metrics p') =
      (errorCount (NodemailerProvider.metrics p) + if success r then 0 else 1)%Z.
Proof.
  unfold NodemailerProvider.sendEmail. rewrite Htr.
  destruct (transporter_sendMail tr _) as [info d f|m d]; cbn;
    eexists _, _; split; try reflexivity; cbn; repeat split; try reflexivity; try assumption; lia.
Qed.

(** On an initialized nodemailer adapter, [sendBulkEmails] adds to
    [successCount] the number of successful results and to [errorCount] the
    number of failed ones, and keeps the transport. *)
Theorem nodemailer_sendBulkEmails_metrics (p : NodemailerProvider.t) (tr : Transporter)
    (emails : list EmailOptions) (Htr : NodemailerProvider.transporter p = Some tr) :
  let '(p', rs) := NodemailerProvider.sendBulkEmails p emails in
  NodemailerProvider.transporter p' = Some tr /\
  successCount (NodemailerProvider.metrics p') = (successCount (NodemailerProvider.metrics p) + count_success rs)%Z /\
  errorCount (NodemailerProvider.metrics p') = (errorCount (NodemailerProvider.metrics p) + count_failure rs)%Z.
Proof.
  revert p Htr. induction emails as [|e rest IH]; intros p Htr; cbn.
  - unfold count_success, count_failure; cbn. repeat split; auto; lia.
  - destruct (nodemailer_sendEmail_initialized p tr e Htr) as (p1 & r & Hs & Ht1 & Hsc & Hec).
    rewrite Hs. specialize (IH p1 Ht1).
    destruct (NodemailerProvider.sendBulkEmails p1 rest) as [p2 rs] eqn:E.
    destruct IH as (Ht2 & Hsc2 & Hec2).
    unfold count_success, count_failure in *; cbn.
    destruct (success r); cbn [negb filter length] in *; rewrite ?Nat2Z.inj_succ;
      repeat split; auto; lia.
Qed.

Lemma nodemailer_sendBulkEmails_metrics_witness :
  NodemailerProvider.transporter nm_ready = Some (createTransport world_up nm_conn0) /\
  let '(p', rs) := NodemailerProvider.sendBulkEmails nm_ready [msg0; msg0; msg0] in
  NodemailerProvider.transporter p' = Some (createTransport world_up nm_conn0) /\
  successCount (NodemailerProvider.metrics p') = (successCount (NodemailerProvider.metrics nm_ready) + count_success rs)%Z /\
  errorCount (NodemailerProvider.metrics p') = (errorCount (NodemailerProvider.metrics nm_ready) + count_failure rs)%Z.
Proof.
  split; [reflexivity|]. apply nodemailer_sendBulkEmails_metrics. reflexivity.
Defined.

(** [sentToday] and [sentThisHour] move together with [successCount]. *)
Definition counters_in_sync (m : Metrics) : Prop :=
  sentToday m = successCount m /\ sentThisHour m = successCount m.

Lemma nodemailer_sendEmail_sync (p : NodemailerProvider.t) (e : EmailOptions) :
  counters_in_sync (NodemailerProvider.metrics p) ->
  counters_in_sync (NodemailerProvider.metrics (fst (NodemailerProvider.sendEmail p e))).
Proof.
  intros [H1 H2]. unfold counters_in_sync, NodemailerProvider.sendEmail.
  destruct (NodemailerProvider.transporter p) as [tr|]; cbn; [|split; assumption].
  destruct (transporter_sendMail tr _); cbn; split; lia.
Qed.

Lemma sendgrid_sendEmail_sync (w : World) (p : SendGridProvider.t) (e : EmailOptions) :
  counters_in_sync (SendGridProvider.metrics p) ->
  counters_in_sync (SendGridProvider.metrics (fst (SendGridProvider.sendEmail w p e))).
Proof.
  intros [H1 H2]. unfold counters_in_sync, SendGridProvider.sendEmail.
  destruct (negb (SendGridProvider.isInitialized p)); cbn; [split; assumption|].
  destruct (sgMailSend w _ _); cbn; split; lia.
Qed.

(** No time-window rollover exists: [sentToday] and [sentThisHour] equal
    [successCount] on a new adapter, and stay equal to it after every
    [sendEmail] of either adapter, whatever its outcome, and after every
    nodemailer [sendBulkEmails]. *)
Theorem sent_counters_track_successes (w : World) (a : Adapter) (o : EmailOptions)
    (p : NodemailerProvider.t) (emails : list EmailOptions)
    (Hsync : counters_in_sync (adapter_metrics a))
    (Hp : counters_in_sync (NodemailerProvider.metrics p)) :
  counters_in_sync (adapter_metrics (fst (adapter_sendEmail w a o))) /\
  counters_in_sync (NodemailerProvider.metrics (fst (NodemailerProvider.sendBulkEmails p emails))) /\
  counters_in_sync (NodemailerProvider.metrics (NodemailerProvider.new w)) /\
  counters_in_sync (SendGridProvider.metrics (SendGridProvider.new w)).
Proof.
  split; [|split; [|split; split; reflexivity]].
  - destruct a as [q|q]; cbn in Hsync |- *.
    + pose proof (nodemailer_sendEmail_sync q o Hsync) as H.
      destruct (NodemailerProvider.sendEmail q o); exact H.
    + pose proof (sendgrid_sendEmail_sync w q o Hsync) as H.
      destruct (SendGridProvider.sendEmail w q o); exact H.
  - revert p Hp. induction emails as [|e rest IH]; intros p Hp; cbn; [exact Hp|].
    pose proof (nodemailer_sendEmail_sync p e Hp) as H.
    destruct (NodemailerProvider.sendEmail p e) as [p1 out]. cbn in H.
    specialize (IH p1 H).
    destruct (NodemailerProvider.sendBulkEmails p1 rest) as [p2 rs]. exact IH.
Qed.

Lemma sent_counters_track_successes_witness :
  counters_in_sync (adapter_metrics (ASendGrid sg_busy)) /\
  counters_in_sync (NodemailerProvider.metrics nm_ready) /\
  counters_in_sync (adapter_metrics (fst (adapter_sendEmail world_down (ASendGrid sg_busy) msg0))) /\
  counters_in_sync (NodemailerProvider.metrics (fst (NodemailerProvider.sendBulkEmails nm_ready [msg0; msg0]))) /\
  counters_in_sync (NodemailerProvider.metrics (NodemailerProvider.new world_down)) /\
  counters_in_sync (SendGridProvider.metrics (SendGridProvider.new world_down)).
Proof.
  split; [split; reflexivity|]. split; [split; reflexivity|].
  apply sent_counters_track_successes; split; reflexivity.
Defined.

Lemma Qrate_le (a1 b1 a2 b2 : Z) :
  (0 < b1)%Z -> (0 < b2)%Z -> (a1 * b2 <= a2 * b1)%Z ->
  inject_Z a1 / inject_Z b1 * inject_Z 100 <= inject_Z a2 / inject_Z b2 * inject_Z 100.
Proof.
  intros H1 H2 H.
  destruct b1 as [|p1|p1]; try lia. destruct b2 as [|p2|p2]; try lia.
  unfold Qle, Qdiv, Qmult, Qinv, inject_Z; cbn. rewrite ?Pos2Z.inj_mul. nia.
Qed.

Lemma Qrate_bounds (a b : Z) :
  (0 < b)%Z -> (0 <= a <= b)%Z ->
  0 <= inject_Z a / inject_Z b * inject_Z 100 /\ inject_Z a / inject_Z b * inject_Z 100 <= inject_Z 100.
Proof.
  intros Hb Ha.
  destruct b as [|p|p]; try lia.
  unfold Qle, Qdiv, Qmult, Qinv, inject_Z; cbn. rewrite ?Pos2Z.inj_mul. split; nia.
Qed.

(** With non-negative counters, the success rate lies between 0 and 100; a
    failed send never raises it and a successful send never lowers it. *)
Theorem successRate_bounds_and_monotone (m : Metrics) (d : Z) (err : option string) (now : Z)
    (Hs : (0 <= successCount m)%Z) (He : (0 <= errorCount m)%Z) :
  0 <= compute_successRate m <= inject_Z 100 /\
  compute_successRate (updateMetrics false d err now m) <= compute_successRate m /\
  compute_successRate m <= compute_successRate (updateMetrics true d err now m).
Proof.
  unfold compute_successRate, updateMetrics; cbn [successCount errorCount].
  destruct (successCount m + errorCount m >? 0)%Z eqn:T;
  [apply Z.gtb_lt in T|rewrite Z.gtb_ltb, Z.ltb_ge in T];
  (destruct (successCount m + (errorCount m + 1) >? 0)%Z eqn:T1;
   [apply Z.gtb_lt in T1|rewrite Z.gtb_ltb, Z.ltb_ge in T1; lia]);
  (destruct (successCount m + 1 + errorCount m >? 0)%Z eqn:T2;
   [apply Z.gtb_lt in T2|rewrite Z.gtb_ltb, Z.ltb_ge in T2; lia]).
  - split; [apply Qrate_bounds; lia|]. split; apply Qrate_le; nia.
  - assert (successCount m = 0%Z) as Z1 by lia. assert (errorCount m = 0%Z) as Z2 by lia.
    rewrite Z1, Z2. cbn. split; [split; discriminate|]. split; discriminate.
Qed.

Lemma successRate_bounds_and_monotone_witness :
  (0 <= successCount (SendGridProvider.metrics sg_busy))%Z /\
  (0 <= errorCount (SendGridProvider.metrics sg_busy))%Z /\
  0 <= compute_successRate (SendGridProvider.metrics sg_busy) <= inject_Z 100 /\
  compute_successRate (updateMetrics false 3 (Some "x") 0 (SendGridProvider.metrics sg_busy))
    <= compute_successRate (SendGridProvider.metrics sg_busy) /\
  compute_successRate (SendGridProvider.metrics sg_busy)
    <= compute_successRate (updateMetrics true 3 (Some "x") 0 (SendGridProvider.metrics sg_busy)).
Proof.
  split; [cbn; lia|]. split; [cbn; lia|].
  apply successRate_bounds_and_monotone; cbn; lia.
Defined.

(** After [shutdown()], a SendGrid adapter throws from [sendEmail], fails
    [verifyConnection()] without any network call and reports itself
    unhealthy; its metrics are kept and a second [shutdown()] changes
    nothing. *)
Theorem sendgrid_after_shutdown (w : World) (p : SendGridProvider.t) (o : EmailOptions) :
  let q := SendGridProvider.shutdown p in
  SendGridProvider.shutdown q = q /\
  snd (SendGridProvider.sendEmail w q o) = Throw (ErrorMsg "SendGrid provider not initialized") /\
  SendGridProvider.verifyConnection w q = (false, []) /\
  isHealthy (fst (SendGridProvider.getHealthStatus q)) = false /\
  snd (SendGridProvider.getHealthStatus q) = [] /\
  SendGridProvider.metrics q = SendGridProvider.metrics p.
Proof. repeat split. Qed.

(** [mapPriority] sends no priority exactly when the option is unset or 0;
    otherwise the priority is "low", "normal" or "high": CRITICAL is sent as
    "high" like HIGH, and every number outside the enum (negative, or above
    CRITICAL) as "normal". *)
Theorem mapPriority_range (priority : option Z) :
  In (NodemailerProvider.mapPriority priority) [None; Some "low"; Some "normal"; Some "high"] /\
  (NodemailerProvider.mapPriority priority = None <-> priority = None \/ priority = Some 0%Z) /\
  NodemailerProvider.mapPriority (Some EmailPriority_CRITICAL) =
    NodemailerProvider.mapPriority (Some EmailPriority_HIGH) /\
  (forall z, (z < 0 \/ EmailPriority_CRITICAL < z)%Z ->
     NodemailerProvider.mapPriority (Some z) = Some "normal").
Proof.
  split; [|split; [|split; [reflexivity|]]].
  - destruct priority as [z|]; cbn; [|auto].
    destruct (z =? 0)%Z; [auto|]. destruct (z =? EmailPriority_LOW)%Z; [auto|].
    destruct (z =? EmailPriority_NORMAL)%Z; [auto|]. destruct (z =? EmailPriority_HIGH)%Z; [auto|].
    destruct (z =? EmailPriority_CRITICAL)%Z; auto.
  - destruct priority as [z|]; cbn; [|intuition].
    destruct (z =? 0)%Z eqn:Z0.
    + apply Z.eqb_eq in Z0. subst. intuition.
    + apply Z.eqb_neq in Z0.
      split; [|intros [H|H]; [discriminate|injection H as H; contradiction]].
      destruct (z =? EmailPriority_LOW)%Z; [discriminate|].
      destruct (z =? EmailPriority_NORMAL)%Z; [discriminate|].
      destruct (z =? EmailPriority_HIGH)%Z; [discriminate|].
      destruct (z =? EmailPriority_CRITICAL)%Z; discriminate.
  - intros z Hz. unfold NodemailerProvider.mapPriority, EmailPriority_LOW, EmailPriority_NORMAL,
      EmailPriority_HIGH, EmailPriority_CRITICAL in *.
    replace (z =? 0)%Z with false by (symmetry; apply Z.eqb_neq; lia).
    replace (z =? 1)%Z with false by (symmetry; apply Z.eqb_neq; lia).
    replace (z =? 2)%Z with false by (symmetry; apply Z.eqb_neq; lia).
    replace (z =? 3)%Z with false by (symmetry; apply Z.eqb_neq; lia).
    replace (z =? 4)%Z with false by (symmetry; apply Z.eqb_neq; lia).
    reflexivity.
Qed.

Lemma mapPriority_range_witness :
  In (NodemailerProvider.mapPriority (Some EmailPriority_LOW)) [None; Some "low"; Some "normal"; Some "high"] /\
  NodemailerProvider.mapPriority (Some (-3)%Z) = Some "normal" /\
  NodemailerProvider.mapPriority (Some 9%Z) = Some "normal".
Proof.
  destruct (mapPriority_range (Some EmailPriority_LOW)) as (Hin & _ & _ & Hout).
  split; [exact Hin|]. split; apply Hout; unfold EmailPriority_CRITICAL; lia.
Defined.
